(** * copag-sys backend: connection registry and session handler

    A shallow embedding of [src/backend/main.py]: the [ConnectionManager]
    class (the registry of live WebSocket connections with its [stats]
    dictionary), the per-connection loop of [websocket_endpoint] and the REST
    handlers that broadcast.

    Python objects are mutable and the handlers raise and catch exceptions,
    so the code is embedded in a small state-and-exception monad over a
    [World] that holds the module-level [manager], the frames written to the
    clients, and two call counters that index the environment's answers
    (the readings of [datetime.now()] and the outcome of every
    [send_text]).  Each handler is modelled as one atomic step: interleaving
    of coroutines at an [await] is outside the model, as are the [logging]
    calls and signals that are not subclasses of [Exception] (task
    cancellation, interpreter exit). *)

From stdpp Require Import base list gmap strings.
From Stdlib Require Import ZArith.

Local Open Scope string_scope.
Local Open Scope list_scope.

(** ** Data model *)

(** A [WebSocket] object.  The registry only ever compares connections
    ([in], [list.remove]); Starlette's class keeps [object.__eq__], so a
    connection is its identity. *)
Definition WebSocket := nat.

(** The value of [datetime.now().isoformat()]: a reading of the wall clock.
    The ISO-8601 rendering of the reading is order preserving, so the
    reading itself stands for the string. *)
Definition timestamp := nat.

(** [self.stats], the dictionary with its three keys. *)
Record Stats := mkStats {
  total_connections : nat;
  is_monitoring : bool;
  last_update : option timestamp
}.

(** The attributes of a [ConnectionManager] instance.  [active_connections]
    is a Python list: order and duplicates are kept. *)
Record ConnectionManager := mkManager {
  active_connections : list WebSocket;
  stats : Stats
}.

(** [ConnectionManager.__init__] *)
Definition ConnectionManager_init : ConnectionManager :=
  {| active_connections := [];
     stats := {| total_connections := 0;
                 is_monitoring := false;
                 last_update := None |} |}.

(** The dictionaries the server serialises with [json.dumps] and writes to
    a client. *)
Inductive payload :=
| Pong (timestamp_ : timestamp)
| StatsReply (data : Stats)
| MonitoringStarted (message : string)
| MonitoringStopped (message : string).

(** The exceptions that occur in the modelled code; all are subclasses of
    [Exception]. *)
Inductive exn :=
| WebSocketDisconnect
| RuntimeError
| JSONDecodeError
| AttributeError
| ValueError.

(** A decoded JSON document, as [json.loads] returns it.  The members of an
    object are listed in document order. *)
#[local] Unset Elimination Schemes.
Inductive json :=
| JNull
| JBool (b : bool)
| JNumber (n : Z)
| JString (s : string)
| JArray (items : list json)
| JObject (members : list (string * json)).
#[local] Set Elimination Schemes.

(** What [websocket.receive_text()] followed by [json.loads] meets in one
    turn of the loop: the peer has closed, the text is not JSON, or a
    document. *)
Inductive frame :=
| PeerClosed
| Malformed
| Document (message : json).

(** ** World and environment *)

Record World := mkWorld {
  manager : ConnectionManager;
  wire : list (WebSocket * payload);  (* frames written, oldest first *)
  ticks : nat;                        (* calls of datetime.now() so far *)
  sends : nat                         (* calls of send_text so far *)
}.

Record Env := mkEnv {
  datetime_now : nat -> timestamp;                (* reading of the k-th call *)
  send_outcome : nat -> WebSocket -> option exn;  (* k-th send_text: None = written *)
  accept_outcome : WebSocket -> option exn
}.

Definition set_manager (m : ConnectionManager) (w : World) : World :=
  {| manager := m; wire := wire w; ticks := ticks w; sends := sends w |}.

Definition init_world : World :=
  {| manager := ConnectionManager_init; wire := []; ticks := 0; sends := 0 |}.

(** ** The monad *)

Inductive result (A : Type) :=
| Returned (a : A)
| Raised (e : exn)
| OutOfFuel.
Arguments Returned {A} a.
Arguments Raised {A} e.
Arguments OutOfFuel {A}.

Definition M (A : Type) : Type := Env -> World -> result A * World.

Definition ret {A} (a : A) : M A := fun _ w => (Returned a, w).

Definition bind {A B} (m : M A) (k : A -> M B) : M B := fun env w =>
  match m env w with
  | (Returned a, w') => k a env w'
  | (Raised e, w') => (Raised e, w')
  | (OutOfFuel, w') => (OutOfFuel, w')
  end.

Definition raise {A} (e : exn) : M A := fun _ w => (Raised e, w).

Definition out_of_fuel {A} : M A := fun _ w => (OutOfFuel, w).

(** [try: body / except ...: handler e].  The state reached when the
    exception was raised is the one the handler starts from. *)
Definition try_except {A} (body : M A) (handler : exn -> M A) : M A :=
  fun env w =>
    match body env w with
    | (Raised e, w') => handler e env w'
    | r => r
    end.

Notation "x <- m ;; k" := (bind m (fun x => k))
  (at level 100, m at next level, right associativity).
Notation "m ;;; k" := (bind m (fun _ => k))
  (at level 100, right associativity).

Definition gets {A} (f : ConnectionManager -> A) : M A :=
  fun _ w => (Returned (f (manager w)), w).

Definition modify (f : ConnectionManager -> ConnectionManager) : M unit :=
  fun _ w => (Returned tt, set_manager (f (manager w)) w).

(** [datetime.now().isoformat()] *)
Definition now : M timestamp := fun env w =>
  (Returned (datetime_now env (ticks w)),
   {| manager := manager w; wire := wire w;
      ticks := S (ticks w); sends := sends w |}).

(** [await websocket.send_text(json.dumps(message))] *)
Definition send_text (websocket : WebSocket) (message : payload) : M unit :=
  fun env w =>
    match send_outcome env (sends w) websocket with
    | None =>
        (Returned tt,
         {| manager := manager w; wire := wire w ++ [(websocket, message)];
            ticks := ticks w; sends := S (sends w) |})
    | Some e =>
        (Raised e,
         {| manager := manager w; wire := wire w;
            ticks := ticks w; sends := S (sends w) |})
    end.

(** [await websocket.accept()] *)
Definition accept (websocket : WebSocket) : M unit := fun env w =>
  match accept_outcome env websocket with
  | None => (Returned tt, w)
  | Some e => (Raised e, w)
  end.

(** ** Assignments to the manager's attributes *)

Definition set_connections (l : list WebSocket) (m : ConnectionManager)
  : ConnectionManager :=
  {| active_connections := l; stats := stats m |}.

Definition set_total_connections (n : nat) (m : ConnectionManager)
  : ConnectionManager :=
  {| active_connections := active_connections m;
     stats := {| total_connections := n;
                 is_monitoring := is_monitoring (stats m);
                 last_update := last_update (stats m) |} |}.

Definition set_is_monitoring (b : bool) (m : ConnectionManager)
  : ConnectionManager :=
  {| active_connections := active_connections m;
     stats := {| total_connections := total_connections (stats m);
                 is_monitoring := b;
                 last_update := last_update (stats m) |} |}.

Definition set_last_update (t : timestamp) (m : ConnectionManager)
  : ConnectionManager :=
  {| active_connections := active_connections m;
     stats := {| total_connections := total_connections (stats m);
                 is_monitoring := is_monitoring (stats m);
                 last_update := Some t |} |}.

(** [list.remove(x)]: drops the first occurrence, [ValueError] when there is
    none. *)
Fixpoint list_remove_first (x : WebSocket) (l : list WebSocket)
  : option (list WebSocket) :=
  match l with
  | [] => None
  | y :: l' =>
      if decide (x = y) then Some l'
      else match list_remove_first x l' with
           | Some r => Some (y :: r)
           | None => None
           end
  end.

(** [self.active_connections.remove(websocket)] *)
Definition remove_connection (websocket : WebSocket) : M unit :=
  l <- gets active_connections ;;
  match list_remove_first websocket l with
  | Some l' => modify (set_connections l')
  | None => raise ValueError
  end.

(** ** ConnectionManager *)

(** [ConnectionManager.connect] *)
Definition connect (websocket : WebSocket) : M unit :=
  accept websocket ;;;
  l <- gets active_connections ;;
  modify (set_connections (l ++ [websocket])) ;;;
  l <- gets active_connections ;;
  modify (set_total_connections (length l)) ;;;
  t <- now ;;
  modify (set_last_update t).

(** [ConnectionManager.disconnect] *)
Definition disconnect (websocket : WebSocket) : M unit :=
  l <- gets active_connections ;;
  (if bool_decide (websocket ∈ l) then remove_connection websocket
   else ret tt) ;;;
  l <- gets active_connections ;;
  modify (set_total_connections (length l)) ;;;
  t <- now ;;
  modify (set_last_update t).

(** The [for connection in self.active_connections] loop.  A Python list
    iterator is an index into the live list: each turn reads the list as it
    is now, stops when the index is past its end, and otherwise hands out
    the element at the index and advances by one, whatever the body did to
    the list. *)
Fixpoint for_active_connections (fuel : nat) (i : nat)
    (body : WebSocket -> M unit) : M unit :=
  match fuel with
  | 0 => out_of_fuel
  | S fuel' =>
      l <- gets active_connections ;;
      match l !! i with
      | None => ret tt
      | Some connection =>
          body connection ;;; for_active_connections fuel' (S i) body
      end
  end.

(** [ConnectionManager.send_to_all].  The body never lengthens the list, so
    its length on entry (plus the final, stopping turn) bounds the number of
    turns. *)
Definition send_to_all (message : payload) : M unit :=
  l0 <- gets active_connections ;;
  for_active_connections (S (length l0)) 0 (fun connection =>
    try_except
      (send_text connection message)
      (fun _ =>
         l <- gets active_connections ;;
         if bool_decide (connection ∈ l) then remove_connection connection
         else ret tt)).

(** ** Session handler *)

(** The dictionary [json.loads] builds from an object keeps, for a repeated
    key, the member that comes last; [dict.get] returns [None] for a key
    that is absent. *)
Fixpoint dict_get (key : string) (members : list (string * json))
  : option json :=
  match members with
  | [] => None
  | (k, v) :: rest =>
      match dict_get key rest with
      | Some v' => Some v'
      | None => if bool_decide (k = key) then Some v else None
      end
  end.

(** [message.get("type")]: only a dictionary has the method. *)
Definition message_get_type (message : json) : M (option json) :=
  match message with
  | JObject members => ret (dict_get "type" members)
  | _ => raise AttributeError
  end.

(** [value == "literal"] for the value [dict.get] returned. *)
Definition eq_str (value : option json) (literal : string) : bool :=
  match value with
  | Some (JString s) => bool_decide (s = literal)
  | _ => false
  end.

(** [data = await websocket.receive_text(); message = json.loads(data)] *)
Definition receive_message (f : frame) : M json :=
  match f with
  | PeerClosed => raise WebSocketDisconnect
  | Malformed => raise JSONDecodeError
  | Document message => ret message
  end.

(** One turn of the [while True] loop of [websocket_endpoint]. *)
Definition handle_message (websocket : WebSocket) (f : frame) : M unit :=
  message <- receive_message f ;;
  ty <- message_get_type message ;;
  if eq_str ty "ping" then
    t <- now ;;
    send_text websocket (Pong t)
  else
    ty <- message_get_type message ;;
    if eq_str ty "get_stats" then
      data <- gets stats ;;
      send_text websocket (StatsReply data)
    else
      ty <- message_get_type message ;;
      if eq_str ty "start_monitoring" then
        modify (set_is_monitoring true) ;;;
        t <- now ;;
        modify (set_last_update t) ;;;
        send_text websocket
          (MonitoringStarted "Monitoring started successfully")
      else
        ty <- message_get_type message ;;
        if eq_str ty "stop_monitoring" then
          modify (set_is_monitoring false) ;;;
          t <- now ;;
          modify (set_last_update t) ;;;
          send_text websocket
            (MonitoringStopped "Monitoring stopped successfully")
        else ret tt.

(** Whether the coroutine of the connection is still in its loop. *)
Inductive session := Active | Closed.

(** The two [except] clauses around the loop: both unregister the
    connection (the second one logs first), and the coroutine ends. *)
Definition on_exception (websocket : WebSocket) (e : exn) : M session :=
  match e with
  | WebSocketDisconnect => disconnect websocket ;;; ret Closed
  | _ => disconnect websocket ;;; ret Closed
  end.

(** One turn of the loop inside its [try]: the turn either completes and
    the loop goes on, or raises and the matching handler ends the
    session. *)
Definition session_step (websocket : WebSocket) (f : frame) : M session :=
  try_except
    (handle_message websocket f ;;; ret Active)
    (on_exception websocket).

(** The start of [websocket_endpoint]: [manager.connect] runs before the
    [try], so an exception of [accept] leaves the coroutine unhandled. *)
Definition websocket_open (websocket : WebSocket) : M session :=
  connect websocket ;;; ret Active.

(** ** REST handlers *)

(** [GET /]: the [timestamp] member of the response. *)
Definition root : M timestamp := now.

(** [POST /start] *)
Definition start_monitoring : M unit :=
  modify (set_is_monitoring true) ;;;
  t <- now ;;
  modify (set_last_update t) ;;;
  send_to_all (MonitoringStarted "Monitoring started from API").

(** [POST /stop] *)
Definition stop_monitoring : M unit :=
  modify (set_is_monitoring false) ;;;
  t <- now ;;
  modify (set_last_update t) ;;;
  send_to_all (MonitoringStopped "Monitoring stopped from API").

(** [GET /stats]: the [stats] member of the response. *)
Definition get_stats : M Stats :=
  data <- gets stats ;;
  t <- now ;;
  ret data.

(** [GET /health]: the [active_connections] and [monitoring] members. *)
Definition health_check : M (nat * bool) :=
  t <- now ;;
  l <- gets active_connections ;;
  data <- gets stats ;;
  ret (length l, is_monitoring data).

(** ** Executions *)

(** What the server reacts to, one handler turn at a time.  A [Receive] is
    accepted for any connection, with or without a running session: the
    executions of the model include those of the server. *)
Inductive event :=
| Open (websocket : WebSocket)
| Receive (websocket : WebSocket) (f : frame)
| PostStart
| PostStop
| GetRoot
| GetStats
| GetHealth.

(** The world after the handler of one event has run; what the handler
    returned or raised goes to the framework. *)
Definition step (env : Env) (w : World) (ev : event) : World :=
  match ev with
  | Open websocket => snd (websocket_open websocket env w)
  | Receive websocket f => snd (session_step websocket f env w)
  | PostStart => snd (start_monitoring env w)
  | PostStop => snd (stop_monitoring env w)
  | GetRoot => snd (root env w)
  | GetStats => snd (get_stats env w)
  | GetHealth => snd (health_check env w)
  end.

Definition run (env : Env) (evs : list event) (w : World) : World :=
  foldl (step env) w evs.

(** A state the server can be in: reached from the fresh process. *)
Definition reachable (env : Env) (w : World) : Prop :=
  exists evs, w = run env evs init_world.

(** ** Vocabulary of the statements *)

(** The list [disconnect] and the broadcast's handler leave behind: the
    guard [if x in l] makes the removal a no-op on a list without [x]. *)
Definition after_remove (x : WebSocket) (l : list WebSocket)
  : list WebSocket :=
  default l (list_remove_first x l).

(** The body of the loop in [send_to_all]. *)
Definition deliver (message : payload) (connection : WebSocket) : M unit :=
  try_except
    (send_text connection message)
    (fun _ =>
       l <- gets active_connections ;;
       if bool_decide (connection ∈ l) then remove_connection connection
       else ret tt).

(** Order on the values of [last_update]: [None], the value before the
    first write, is below every reading. *)
Definition le_opt (a b : option timestamp) : Prop :=
  match a, b with
  | None, _ => True
  | Some x, Some y => x <= y
  | Some _, None => False
  end.

(** The wall clock never steps back between two calls. *)
Definition clock_monotone (env : Env) : Prop :=
  forall i j, i <= j -> datetime_now env i <= datetime_now env j.

(** The stored count agrees with the live list. *)
Definition count_consistent (w : World) : Prop :=
  total_connections (stats (manager w))
  = length (active_connections (manager w)).

(** The [type] values the loop has a branch for. *)
Definition recognised_type (ty : option json) : bool :=
  eq_str ty "ping" || eq_str ty "get_stats"
  || eq_str ty "start_monitoring" || eq_str ty "stop_monitoring".

(** The last row of the protocol table: a text that is not JSON, a document
    without a [type] member, or one whose [type] is none of the four. *)
Definition any_other_or_malformed (f : frame) : bool :=
  match f with
  | PeerClosed => false
  | Malformed => true
  | Document (JObject members) =>
      negb (recognised_type (dict_get "type" members))
  | Document _ => true
  end.

(** Calls of the two registry operations, and the world after a sequence of
    them. *)
Inductive registry_call :=
| Register (websocket : WebSocket)
| Unregister (websocket : WebSocket).

Definition call (c : registry_call) : M unit :=
  match c with
  | Register websocket => connect websocket
  | Unregister websocket => disconnect websocket
  end.

Definition calls (env : Env) (cs : list registry_call) (w : World) : World :=
  foldl (fun w c => snd (call c env w)) w cs.

(** The registrations a sequence of calls leaves, read off the calls alone:
    [Register] adds the connection when its [accept] goes through (a
    [connect] whose [accept] raises never returns), [Unregister] takes it
    out.  [registered_after env cs R] starts from the set [R]. *)
Definition accepted (env : Env) (websocket : WebSocket) : bool :=
  match accept_outcome env websocket with
  | None => true
  | Some _ => false
  end.

Definition registered_step (env : Env) (R : gset WebSocket)
    (c : registry_call) : gset WebSocket :=
  match c with
  | Register websocket =>
      if accepted env websocket then {[websocket]} ∪ R else R
  | Unregister websocket => R ∖ {[websocket]}
  end.

Definition registered_after (env : Env) (cs : list registry_call)
    (R : gset WebSocket) : gset WebSocket :=
  foldl (registered_step env) R cs.

(** The caller contract of [connect]: no [Register] names a connection that
    is registered at that point of the sequence. *)
Fixpoint registers_once (env : Env) (cs : list registry_call)
    (R : gset WebSocket) : bool :=
  match cs with
  | [] => true
  | c :: cs' =>
      match c with
      | Register websocket => bool_decide (websocket ∉ R)
      | Unregister _ => true
      end
      && registers_once env cs' (registered_step env R c)
  end.

(** What decides whether a turn of the session loop raises, read off its
    input: the peer has closed, the text is not a JSON object, or the turn
    has a reply to write and the write fails. *)
Definition turn_raises (env : Env) (w : World) (websocket : WebSocket)
    (f : frame) : bool :=
  match f with
  | PeerClosed => true
  | Malformed => true
  | Document (JObject members) =>
      recognised_type (dict_get "type" members)
      && match send_outcome env (sends w) websocket with
         | None => false
         | Some _ => true
         end
  | Document _ => true
  end.

(** How one handler turn may move the clock counter and [last_update]:
    the counter does not go back, and [last_update] is either kept or holds
    a reading taken during the turn. *)
Definition advances (env : Env) (w w' : World) : Prop :=
  ticks w <= ticks w' /\
  (last_update (stats (manager w')) = last_update (stats (manager w)) \/
   exists k, ticks w <= k < ticks w' /\
             last_update (stats (manager w')) = Some (datetime_now env k)).

(** The events whose handler has an assignment to [is_monitoring]: the
    two [POST] handlers and the two wire branches. *)
Definition toggling (ev : event) : bool :=
  match ev with
  | PostStart | PostStop => true
  | Receive _ (Document (JObject members)) =>
      eq_str (dict_get "type" members) "start_monitoring"
      || eq_str (dict_get "type" members) "stop_monitoring"
  | _ => false
  end.

(** The frame a wire toggle answers with. *)
Definition toggle_reply (b : bool) : payload :=
  if b then MonitoringStarted "Monitoring started successfully"
  else MonitoringStopped "Monitoring stopped successfully".

(** Every connection that opens is a new object: no [Open] carries a
    connection that is in the list at that moment. *)
Fixpoint opens_fresh (env : Env) (evs : list event) (w : World) : bool :=
  match evs with
  | [] => true
  | ev :: evs' =>
      match ev with
      | Open websocket =>
          bool_decide (websocket ∉ active_connections (manager w))
      | _ => true
      end
      && opens_fresh env evs' (step env w ev)
  end.

(** ** Sample environments *)

(** A clock, and peers whose transport is gone: every write to one of them
    raises. *)
Definition env_of (clock : nat -> timestamp) (dead : list WebSocket) : Env :=
  {| datetime_now := clock;
     send_outcome := fun _ websocket =>
       if bool_decide (websocket ∈ dead) then Some RuntimeError else None;
     accept_outcome := fun _ => None |}.

Definition clock_forward : nat -> timestamp := fun k => 100 + k.
Definition clock_backward : nat -> timestamp := fun k => 100 - k.

Definition type_message (ty : string) : frame :=
  Document (JObject [("type", JString ty)]).

(** * Properties *)

(** ** [list.remove] *)

Lemma list_remove_first_elem (x : WebSocket) (l : list WebSocket) :
  x ∈ l ->
  exists l', list_remove_first x l = Some l' /\ length l = S (length l').
Proof.
  induction l as [|y l IH]; intros Hin.
  - by apply elem_of_nil in Hin.
  - simpl. destruct (decide (x = y)) as [->|Hne].
    + eauto.
    + apply elem_of_cons in Hin as [Heq|Hin]; [done|].
      destruct (IH Hin) as (l' & -> & Hlen).
      exists (y :: l'). split; [done|]. simpl. by rewrite Hlen.
Qed.

Lemma list_remove_first_absent (x : WebSocket) (l : list WebSocket) :
  x ∉ l -> list_remove_first x l = None.
Proof.
  induction l as [|y l IH]; intros Hnin; [done|].
  simpl. apply not_elem_of_cons in Hnin as [Hne Hnin].
  destruct (decide (x = y)); [done|]. by rewrite IH.
Qed.

Lemma list_remove_first_sub (x y : WebSocket) (l l' : list WebSocket) :
  list_remove_first x l = Some l' -> y ∈ l' -> y ∈ l.
Proof.
  revert l'. induction l as [|z l IH]; intros l' Hrem Hy; [done|].
  simpl in Hrem. destruct (decide (x = z)) as [->|Hne].
  - injection Hrem as <-. by apply elem_of_cons; right.
  - destruct (list_remove_first x l) as [r|] eqn:Hr; [|done].
    injection Hrem as <-.
    apply elem_of_cons in Hy as [->|Hy].
    + apply elem_of_cons; by left.
    + apply elem_of_cons; right. by apply (IH r).
Qed.

Lemma list_remove_first_NoDup (x : WebSocket) (l l' : list WebSocket) :
  list_remove_first x l = Some l' -> NoDup l -> NoDup l' /\ x ∉ l'.
Proof.
  revert l'. induction l as [|z l IH]; intros l' Hrem Hnd; [done|].
  apply NoDup_cons in Hnd as [Hz Hnd].
  simpl in Hrem. destruct (decide (x = z)) as [->|Hne].
  - injection Hrem as <-. done.
  - destruct (list_remove_first x l) as [r|] eqn:Hr; [|done].
    injection Hrem as <-.
    destruct (IH r eq_refl Hnd) as [Hndr Hxr].
    split.
    + apply NoDup_cons. split; [|done].
      intros Hzr. apply Hz. by apply (list_remove_first_sub x z l r).
    + apply not_elem_of_cons. done.
Qed.

Lemma after_remove_absent (x : WebSocket) (l : list WebSocket) :
  x ∉ l -> after_remove x l = l.
Proof.
  intros Hnin. unfold after_remove. by rewrite list_remove_first_absent.
Qed.

Lemma after_remove_length (x : WebSocket) (l : list WebSocket) :
  length (after_remove x l) <= length l.
Proof.
  unfold after_remove.
  destruct (decide (x ∈ l)) as [Hin|Hnin].
  - destruct (list_remove_first_elem x l Hin) as (l' & -> & Hlen).
    simpl. lia.
  - by rewrite list_remove_first_absent.
Qed.

Lemma after_remove_NoDup (x : WebSocket) (l : list WebSocket) :
  NoDup l -> NoDup (after_remove x l).
Proof.
  intros Hnd. unfold after_remove.
  destruct (list_remove_first x l) as [l'|] eqn:Hrem; [|done].
  simpl. by destruct (list_remove_first_NoDup x l l' Hrem Hnd).
Qed.

Lemma after_remove_keeps_other (x c : WebSocket) (l : list WebSocket) :
  c <> x -> c ∈ l -> c ∈ after_remove x l.
Proof.
  intros Hne. unfold after_remove.
  induction l as [|y l IH]; intros Hin; simpl; [done|].
  destruct (decide (x = y)) as [->|Hxy]; simpl.
  - apply elem_of_cons in Hin as [Heq|Hin]; [congruence|done].
  - destruct (list_remove_first x l) as [r|]; simpl in *; [|done].
    apply elem_of_cons in Hin as [->|Hin].
    + apply elem_of_cons. by left.
    + apply elem_of_cons. right. by apply IH.
Qed.

Lemma after_remove_set (x : WebSocket) (l : list WebSocket) :
  NoDup l ->
  list_to_set (after_remove x l)
  = (list_to_set l : gset WebSocket) ∖ {[x]}.
Proof.
  intros Hnd. apply set_eq. intros y.
  rewrite elem_of_difference, !elem_of_list_to_set, not_elem_of_singleton.
  split.
  - unfold after_remove.
    destruct (list_remove_first x l) as [l'|] eqn:Hrem; simpl; intros Hy.
    + split; [by apply (list_remove_first_sub x y l l')|].
      destruct (list_remove_first_NoDup x l l' Hrem Hnd) as [_ Hx].
      by intros ->.
    + split; [done|]. intros ->.
      destruct (list_remove_first_elem _ _ Hy) as (l' & Hl' & _).
      congruence.
  - intros [Hy Hne]. by apply after_remove_keeps_other.
Qed.

(** ** What [connect] and [disconnect] compute *)

Lemma disconnect_spec (websocket : WebSocket) (env : Env) (w : World) :
  disconnect websocket env w =
  (Returned tt,
   let l' := after_remove websocket (active_connections (manager w)) in
   {| manager :=
        {| active_connections := l';
           stats := {| total_connections := length l';
                       is_monitoring := is_monitoring (stats (manager w));
                       last_update := Some (datetime_now env (ticks w)) |} |};
      wire := wire w; ticks := S (ticks w); sends := sends w |}).
Proof.
  unfold disconnect, bind, gets. simpl.
  case_bool_decide as Hin.
  - destruct (list_remove_first_elem _ _ Hin) as (l' & Hrem & _).
    unfold remove_connection, bind, gets, after_remove. simpl.
    rewrite Hrem. reflexivity.
  - rewrite (after_remove_absent _ _ Hin). reflexivity.
Qed.

Lemma connect_spec (websocket : WebSocket) (env : Env) (w : World) :
  connect websocket env w =
  match accept_outcome env websocket with
  | None =>
      (Returned tt,
       let l' := active_connections (manager w) ++ [websocket] in
       {| manager :=
            {| active_connections := l';
               stats := {| total_connections := length l';
                           is_monitoring := is_monitoring (stats (manager w));
                           last_update := Some (datetime_now env (ticks w)) |} |};
          wire := wire w; ticks := S (ticks w); sends := sends w |})
  | Some e => (Raised e, w)
  end.
Proof.
  unfold connect, bind, accept. destruct (accept_outcome env websocket); reflexivity.
Qed.

(** ** The broadcast loop *)

Lemma send_to_all_unfold (message : payload) (env : Env) (w : World) :
  send_to_all message env w =
  for_active_connections (S (length (active_connections (manager w)))) 0
    (deliver message) env w.
Proof. reflexivity. Qed.

(** One delivery either writes the frame or drops the connection; it
    returns normally in both cases. *)
Lemma deliver_spec (message : payload) (connection : WebSocket)
    (env : Env) (w : World) :
  deliver message connection env w =
  match send_outcome env (sends w) connection with
  | None =>
      (Returned tt,
       {| manager := manager w; wire := wire w ++ [(connection, message)];
          ticks := ticks w; sends := S (sends w) |})
  | Some _ =>
      (Returned tt,
       {| manager :=
            set_connections
              (after_remove connection (active_connections (manager w)))
              (manager w);
          wire := wire w; ticks := ticks w; sends := S (sends w) |})
  end.
Proof.
  unfold deliver, try_except, send_text.
  destruct (send_outcome env (sends w) connection) as [e|]; [|reflexivity].
  unfold bind, gets. simpl.
  case_bool_decide as Hin.
  - destruct (list_remove_first_elem _ _ Hin) as (l' & Hrem & _).
    unfold remove_connection, bind, gets, after_remove, modify. simpl.
    rewrite Hrem. reflexivity.
  - rewrite (after_remove_absent _ _ Hin).
    unfold ret, set_connections. by destruct w as [[? ?] ? ? ?].
Qed.

Lemma deliver_frame (message : payload) (connection : WebSocket)
    (env : Env) (w : World) :
  exists w',
    deliver message connection env w = (Returned tt, w') /\
    stats (manager w') = stats (manager w) /\
    ticks w' = ticks w /\
    length (active_connections (manager w'))
      <= length (active_connections (manager w)).
Proof.
  rewrite deliver_spec.
  destruct (send_outcome env (sends w) connection); eexists; (split; [reflexivity|]); simpl.
  - repeat split; try done. apply after_remove_length.
  - repeat split; done.
Qed.

(** With fuel beyond the part of the list still ahead of the index the loop
    reaches its end, returns normally, and has touched neither [stats] nor
    the clock. *)
Lemma for_active_connections_deliver (message : payload) (env : Env)
    (fuel i : nat) (w : World) :
  length (active_connections (manager w)) - i < fuel ->
  exists w',
    for_active_connections fuel i (deliver message) env w = (Returned tt, w') /\
    stats (manager w') = stats (manager w) /\
    ticks w' = ticks w.
Proof.
  revert i w. induction fuel as [|fuel IH]; intros i w Hfuel; [lia|].
  simpl. unfold bind at 1, gets at 1. simpl.
  destruct (active_connections (manager w) !! i) as [c|] eqn:Hi.
  - apply lookup_lt_Some in Hi.
    destruct (deliver_frame message c env w) as (w1 & Hd & Hs & Ht & Hl).
    unfold bind. rewrite Hd.
    destruct (IH (S i) w1) as (w' & Hloop & Hs' & Ht'); [lia|].
    exists w'. split; [done|]. split; congruence.
  - exists w. done.
Qed.

Lemma send_to_all_frame (message : payload) (env : Env) (w : World) :
  exists w',
    send_to_all message env w = (Returned tt, w') /\
    stats (manager w') = stats (manager w) /\
    ticks w' = ticks w.
Proof.
  rewrite send_to_all_unfold.
  apply for_active_connections_deliver. lia.
Qed.

(** ** Broadcast: failures are absorbed, [stats] is not touched *)

(** C4.  Whatever the message, the connection list and the outcome of each
    individual [send_text] (the environment decides every write
    separately), [send_to_all] runs to the end of its loop and returns
    normally: it neither raises nor runs out of turns. *)
Theorem send_to_all_never_raises (message : payload) (env : Env) (w : World) :
  fst (send_to_all message env w) = Returned tt.
Proof.
  destruct (send_to_all_frame message env w) as (w' & -> & _). reflexivity.
Qed.

(** C8.  [send_to_all] leaves the three entries of [stats] as they were,
    also when it drops failing connections from [active_connections]. *)
Theorem send_to_all_keeps_stats (message : payload) (env : Env) (w : World) :
  total_connections (stats (manager (snd (send_to_all message env w))))
    = total_connections (stats (manager w)) /\
  is_monitoring (stats (manager (snd (send_to_all message env w))))
    = is_monitoring (stats (manager w)) /\
  last_update (stats (manager (snd (send_to_all message env w))))
    = last_update (stats (manager w)).
Proof.
  destruct (send_to_all_frame message env w) as (w' & -> & Hstats & _).
  simpl. by rewrite Hstats.
Qed.

(** ** Register and unregister *)

(** C10.  [disconnect] of a connection that is not in the list keeps the
    list, and still stores the length of the list in [total_connections]
    and a fresh clock reading in [last_update]; so the stored [stats]
    change whenever they differed from these two values. *)
Theorem disconnect_absent_rewrites_stats (websocket : WebSocket) (env : Env)
    (w : World) :
  websocket ∉ active_connections (manager w) ->
  fst (disconnect websocket env w) = Returned tt /\
  active_connections (manager (snd (disconnect websocket env w)))
    = active_connections (manager w) /\
  total_connections (stats (manager (snd (disconnect websocket env w))))
    = length (active_connections (manager w)) /\
  last_update (stats (manager (snd (disconnect websocket env w))))
    = Some (datetime_now env (ticks w)) /\
  (last_update (stats (manager w)) <> Some (datetime_now env (ticks w)) ->
   stats (manager (snd (disconnect websocket env w))) <> stats (manager w)).
Proof.
  intros Hnin. rewrite disconnect_spec. simpl.
  rewrite (after_remove_absent _ _ Hnin).
  repeat split; try reflexivity.
  intros Hne Heq. apply Hne. rewrite <- Heq. reflexivity.
Qed.

Lemma disconnect_absent_rewrites_stats_witness :
  stats (manager (snd (disconnect 7 (env_of clock_forward [])
                         (run (env_of clock_forward []) [Open 1] init_world))))
  <> stats (manager (run (env_of clock_forward []) [Open 1] init_world)).
Proof.
  apply (disconnect_absent_rewrites_stats 7 (env_of clock_forward [])
           (run (env_of clock_forward []) [Open 1] init_world)).
  - vm_compute. intros Hin. apply list_elem_of_singleton in Hin. lia.
  - vm_compute. intros Heq. discriminate Heq.
Defined.

(** The list and the count follow the registrations the calls make. *)
Lemma calls_track_registered (env : Env) (cs : list registry_call)
    (R : gset WebSocket) (w : World) :
  registers_once env cs R = true ->
  NoDup (active_connections (manager w)) ->
  list_to_set (active_connections (manager w)) = R ->
  count_consistent w ->
  NoDup (active_connections (manager (calls env cs w))) /\
  list_to_set (active_connections (manager (calls env cs w)))
  = registered_after env cs R /\
  count_consistent (calls env cs w).
Proof.
  revert R w. induction cs as [|c cs IH]; intros R w Hc Hnd Hset Hcount;
    [done|].
  simpl in Hc. apply andb_true_iff in Hc as [Hc1 Hc2].
  change (calls env (c :: cs) w) with (calls env cs (snd (call c env w))).
  change (registered_after env (c :: cs) R)
    with (registered_after env cs (registered_step env R c)).
  destruct c as [websocket|websocket]; simpl in *.
  - rewrite connect_spec. unfold accepted in *.
    destruct (accept_outcome env websocket) as [e|]; [by apply IH|].
    apply bool_decide_eq_true in Hc1.
    assert (Hnin : websocket ∉ active_connections (manager w)).
    { intros Hin. apply Hc1. rewrite <- Hset.
      by apply elem_of_list_to_set. }
    apply IH; simpl.
    + done.
    + apply NoDup_app. repeat split; [done| |apply NoDup_singleton].
      intros x Hx Hx'. apply list_elem_of_singleton in Hx'. by subst.
    + rewrite list_to_set_app_L, Hset. simpl.
      rewrite (right_id_L ∅ (∪)). apply (comm_L (∪)).
    + reflexivity.
  - rewrite disconnect_spec. apply IH; simpl.
    + done.
    + by apply after_remove_NoDup.
    + rewrite after_remove_set by done. by rewrite Hset.
    + reflexivity.
Qed.

(** C6.  After any sequence of [connect] and [disconnect] calls on a fresh
    manager in which no connection is registered while it is registered
    already, the stored count is the number of distinct connections the
    calls have left registered, and these are exactly the members of the
    list.  A further [disconnect] of a connection that is not registered
    returns normally, keeps the list, and leaves the count equal to the
    size of that set. *)
Theorem count_is_number_of_registered (env : Env) (cs : list registry_call) :
  registers_once env cs ∅ = true ->
  total_connections (stats (manager (calls env cs init_world)))
  = size (registered_after env cs ∅) /\
  list_to_set (active_connections (manager (calls env cs init_world)))
  = registered_after env cs ∅ /\
  forall websocket,
    websocket ∉ registered_after env cs ∅ ->
    fst (disconnect websocket env (calls env cs init_world)) = Returned tt /\
    active_connections
      (manager (calls env (cs ++ [Unregister websocket]) init_world))
    = active_connections (manager (calls env cs init_world)) /\
    total_connections
      (stats (manager (calls env (cs ++ [Unregister websocket]) init_world)))
    = size (registered_after env cs ∅).
Proof.
  intros Hc.
  destruct (calls_track_registered env cs ∅ init_world Hc)
    as (Hnd & Hset & Hcount).
  { apply NoDup_nil_2. }
  { reflexivity. }
  { reflexivity. }
  assert (Hsize : length (active_connections (manager (calls env cs init_world)))
                  = size (registered_after env cs ∅)).
  { rewrite <- Hset. symmetry. by apply size_list_to_set. }
  split; [by rewrite <- Hsize|]. split; [exact Hset|].
  intros websocket Hnin.
  assert (Hnin' : websocket
                  ∉ active_connections (manager (calls env cs init_world))).
  { intros Hin. apply Hnin. rewrite <- Hset. by apply elem_of_list_to_set. }
  assert (Hlast : calls env (cs ++ [Unregister websocket]) init_world
                  = snd (disconnect websocket env (calls env cs init_world))).
  { unfold calls. by rewrite foldl_app. }
  rewrite Hlast, disconnect_spec. simpl.
  rewrite (after_remove_absent _ _ Hnin').
  done.
Qed.

Lemma count_is_number_of_registered_witness :
  total_connections
    (stats (manager
       (calls (env_of clock_forward [])
          [Register 1; Register 2; Unregister 1; Unregister 1; Register 3]
          init_world)))
  = size (registered_after (env_of clock_forward [])
            [Register 1; Register 2; Unregister 1; Unregister 1; Register 3]
            ∅).
Proof.
  apply (count_is_number_of_registered (env_of clock_forward [])
           [Register 1; Register 2; Unregister 1; Unregister 1; Register 3]).
  vm_compute. reflexivity.
Defined.

(** ** The session loop *)

Lemma on_exception_spec (websocket : WebSocket) (e : exn) (env : Env)
    (w : World) :
  on_exception websocket e env w
  = (Returned Closed, snd (disconnect websocket env w)).
Proof.
  destruct e; unfold on_exception, bind; rewrite disconnect_spec; reflexivity.
Qed.

Lemma recognised_type_false (ty : option json) :
  recognised_type ty = false ->
  eq_str ty "ping" = false /\ eq_str ty "get_stats" = false /\
  eq_str ty "start_monitoring" = false /\ eq_str ty "stop_monitoring" = false.
Proof.
  unfold recognised_type. intros H.
  repeat (apply orb_false_iff in H as [H ?]). done.
Qed.

(** A text that does not decode, or decodes to something that is not an
    object, raises inside the [try]; the handler unregisters the connection
    and the coroutine ends. *)
Lemma session_step_undecodable (websocket : WebSocket) (f : frame)
    (env : Env) (w : World) :
  match f with
  | Malformed => True
  | Document (JObject _) => False
  | Document _ => True
  | PeerClosed => False
  end ->
  session_step websocket f env w
  = (Returned Closed, snd (disconnect websocket env w)).
Proof.
  intros Hf. destruct f as [| |[]]; try done.
  - exact (on_exception_spec websocket JSONDecodeError env w).
  - exact (on_exception_spec websocket AttributeError env w).
  - exact (on_exception_spec websocket AttributeError env w).
  - exact (on_exception_spec websocket AttributeError env w).
  - exact (on_exception_spec websocket AttributeError env w).
  - exact (on_exception_spec websocket AttributeError env w).
Qed.

(** C3, as the code has it.  A message that decodes to a JSON object whose
    [type] is none of [ping], [get_stats], [start_monitoring],
    [stop_monitoring] (or is missing) gets no reply and changes nothing:
    the world after the turn is the world before it, and the session stays
    in its loop. *)
Theorem unknown_type_is_ignored (websocket : WebSocket)
    (members : list (string * json)) (env : Env) (w : World) :
  recognised_type (dict_get "type" members) = false ->
  session_step websocket (Document (JObject members)) env w
  = (Returned Active, w).
Proof.
  intros H. apply recognised_type_false in H as (H1 & H2 & H3 & H4).
  unfold session_step, try_except, handle_message, bind. simpl.
  rewrite H1. simpl. rewrite H2. simpl. rewrite H3. simpl. rewrite H4.
  reflexivity.
Qed.

Lemma unknown_type_is_ignored_witness :
  session_step 1 (type_message "frobnicate") (env_of clock_forward [])
    (run (env_of clock_forward []) [Open 1; Open 2] init_world)
  = (Returned Active,
     run (env_of clock_forward []) [Open 1; Open 2] init_world).
Proof.
  apply (unknown_type_is_ignored 1 [("type", JString "frobnicate")]
           (env_of clock_forward [])
           (run (env_of clock_forward []) [Open 1; Open 2] init_world)).
  vm_compute. reflexivity.
Defined.

(** C3 as the protocol table words it fails on a malformed text: with two
    open sessions, a text from connection 1 that is not JSON ends that
    session and unregisters the connection, so the list, the count and
    [last_update] all change. *)
Lemma malformed_message_closes_session :
  any_other_or_malformed Malformed = true /\
  session_step 1 Malformed (env_of clock_forward [])
    (run (env_of clock_forward []) [Open 1; Open 2] init_world)
  = (Returned Closed,
     {| manager :=
          {| active_connections := [2];
             stats := {| total_connections := 1;
                         is_monitoring := false;
                         last_update := Some 102 |} |};
        wire := []; ticks := 3; sends := 0 |}) /\
  ~ (fst (session_step 1 Malformed (env_of clock_forward [])
            (run (env_of clock_forward []) [Open 1; Open 2] init_world))
     = Returned Active /\
     manager (snd (session_step 1 Malformed (env_of clock_forward [])
                     (run (env_of clock_forward []) [Open 1; Open 2]
                        init_world)))
     = manager (run (env_of clock_forward []) [Open 1; Open 2] init_world)).
Proof.
  split; [reflexivity|]. split; [vm_compute; reflexivity|].
  vm_compute. intros [H _]. discriminate H.
Qed.



(** ** [last_update] over an execution *)

Lemma advances_refl (env : Env) (w : World) : advances env w w.
Proof. split; [lia|by left]. Qed.

Lemma advances_trans (env : Env) (w1 w2 w3 : World) :
  advances env w1 w2 -> advances env w2 w3 -> advances env w1 w3.
Proof.
  intros [Ht1 H1] [Ht2 H2]. split; [lia|].
  destruct H2 as [H2|(k & Hk & H2)].
  - destruct H1 as [H1|(k & Hk & H1)].
    + left. congruence.
    + right. exists k. split; [lia|congruence].
  - right. exists k. split; [lia|done].
Qed.

Ltac solve_advances :=
  split; simpl;
  [ lia
  | first [ left; reflexivity
          | right; eexists; split; [|reflexivity]; lia ] ].

Lemma disconnect_advances (websocket : WebSocket) (env : Env) (w : World) :
  advances env w (snd (disconnect websocket env w)).
Proof. rewrite disconnect_spec. solve_advances. Qed.

Lemma connect_advances (websocket : WebSocket) (env : Env) (w : World) :
  advances env w (snd (connect websocket env w)).
Proof.
  rewrite connect_spec. destruct (accept_outcome env websocket).
  - apply advances_refl.
  - solve_advances.
Qed.

Lemma handle_message_advances (websocket : WebSocket) (f : frame)
    (env : Env) (w : World) :
  advances env w (snd (handle_message websocket f env w)).
Proof.
  unfold handle_message, bind.
  destruct f as [| |[]]; simpl; try apply advances_refl.
  repeat (match goal with
          | |- context [eq_str ?a ?b] => destruct (eq_str a b)
          end; simpl);
    unfold send_text; simpl;
    try match goal with
        | |- context [send_outcome ?e ?k ?c] => destruct (send_outcome e k c)
        end;
    try apply advances_refl; solve_advances.
Qed.

Lemma session_step_cases (websocket : WebSocket) (f : frame) (env : Env)
    (w : World) :
  session_step websocket f env w
  = match handle_message websocket f env w with
    | (Returned _, w') => (Returned Active, w')
    | (Raised e, w') => (Returned Closed, snd (disconnect websocket env w'))
    | (OutOfFuel, w') => (OutOfFuel, w')
    end.
Proof.
  unfold session_step, try_except, bind.
  destruct (handle_message websocket f env w) as [[[]|e|] w']; try reflexivity.
  apply on_exception_spec.
Qed.

Lemma session_step_advances (websocket : WebSocket) (f : frame) (env : Env)
    (w : World) :
  advances env w (snd (session_step websocket f env w)).
Proof.
  rewrite session_step_cases.
  pose proof (handle_message_advances websocket f env w) as H.
  destruct (handle_message websocket f env w) as [[[]|e|] w']; simpl in *;
    try done.
  eapply advances_trans; [exact H|apply disconnect_advances].
Qed.

Lemma toggle_then_broadcast_advances (b : bool) (message : payload)
    (env : Env) (w : World) :
  advances env w
    (snd ((modify (set_is_monitoring b) ;;;
           t <- now ;;
           modify (set_last_update t) ;;;
           send_to_all message) env w)).
Proof.
  unfold bind at 1 2 3. simpl.
  match goal with
  | |- context [send_to_all message env ?w1] =>
      destruct (send_to_all_frame message env w1) as (w' & -> & Hs & Ht)
  end.
  simpl in *. split; [lia|].
  right. exists (ticks w). split; [lia|]. by rewrite Hs.
Qed.

Lemma step_advances (env : Env) (w : World) (ev : event) :
  advances env w (step env w ev).
Proof.
  destruct ev as [websocket|websocket f| | | | |]; simpl.
  - unfold websocket_open, bind.
    pose proof (connect_advances websocket env w) as H.
    by destruct (connect websocket env w) as [[[]|e|] w'].
  - apply session_step_advances.
  - apply toggle_then_broadcast_advances.
  - apply toggle_then_broadcast_advances.
  - solve_advances.
  - solve_advances.
  - solve_advances.
Qed.

Lemma run_advances (env : Env) (evs : list event) (w : World) :
  advances env w (run env evs w).
Proof.
  revert w. induction evs as [|ev evs IH]; intros w.
  - apply advances_refl.
  - eapply advances_trans; [apply (step_advances env w ev)|apply IH].
Qed.

(** C7, as the code has it.  Provided the wall clock does not step back
    between two calls of [datetime.now()], [last_update] never decreases
    along an execution from the fresh process ([None], its initial value,
    counting as the least): what it holds after a prefix of the execution
    is at most what it holds after any extension. *)
Theorem last_update_non_decreasing (env : Env) (evs1 evs2 : list event) :
  clock_monotone env ->
  le_opt (last_update (stats (manager (run env evs1 init_world))))
         (last_update (stats (manager (run env (evs1 ++ evs2) init_world)))).
Proof.
  intros Hclock. unfold run. rewrite foldl_app.
  fold (run env evs1 init_world).
  fold (run env evs2 (run env evs1 init_world)).
  pose proof (run_advances env evs1 init_world) as [_ H1].
  pose proof (run_advances env evs2 (run env evs1 init_world)) as [_ H2].
  set (w1 := run env evs1 init_world) in *.
  set (w2 := run env evs2 w1) in *.
  destruct H1 as [H1|(k1 & Hk1 & H1)].
  - rewrite H1. simpl. done.
  - destruct H2 as [H2|(k2 & Hk2 & H2)].
    + rewrite H2, H1. simpl. done.
    + rewrite H2, H1. simpl. apply Hclock. lia.
Qed.

Lemma last_update_non_decreasing_witness :
  le_opt
    (last_update
       (stats (manager (run (env_of clock_forward []) [Open 1] init_world))))
    (last_update
       (stats (manager (run (env_of clock_forward [])
                          ([Open 1] ++ [Receive 1 (type_message "stop_monitoring")])
                          init_world)))).
Proof.
  apply (last_update_non_decreasing (env_of clock_forward []) [Open 1]
           [Receive 1 (type_message "stop_monitoring")]).
  intros i j Hij. unfold env_of, clock_forward. simpl. lia.
Defined.

(** C7 as the spec words it fails when the wall clock is set back between
    two registrations: the second [connect] stores the smaller reading. *)
Lemma last_update_decreases_with_clock :
  last_update
    (stats (manager (run (env_of clock_backward []) [Open 1] init_world)))
  = Some 100 /\
  last_update
    (stats (manager (run (env_of clock_backward []) [Open 1; Open 2]
                       init_world)))
  = Some 99 /\
  ~ le_opt
      (last_update
         (stats (manager (run (env_of clock_backward []) [Open 1]
                            init_world))))
      (last_update
         (stats (manager (run (env_of clock_backward [])
                            ([Open 1] ++ [Open 2]) init_world)))).
Proof.
  split; [reflexivity|]. split; [reflexivity|].
  vm_compute. lia.
Qed.

(** ** Broadcast with one dead peer *)

Lemma list_remove_first_middle (c : WebSocket) (l1 l2 : list WebSocket) :
  c ∉ l1 -> list_remove_first c (l1 ++ c :: l2) = Some (l1 ++ l2).
Proof.
  induction l1 as [|y l1 IH]; intros Hnin; simpl.
  - by rewrite decide_True.
  - apply not_elem_of_cons in Hnin as [Hne Hnin].
    rewrite decide_False by done. by rewrite IH.
Qed.

(** One turn of the loop around [deliver]. *)
Lemma for_active_connections_step (message : payload) (env : Env)
    (fuel i : nat) (w : World) :
  for_active_connections (S fuel) i (deliver message) env w
  = match active_connections (manager w) !! i with
    | Some connection =>
        for_active_connections fuel (S i) (deliver message) env
          (snd (deliver message connection env w))
    | None => (Returned tt, w)
    end.
Proof.
  simpl. unfold bind at 1, gets at 1. simpl.
  destruct (active_connections (manager w) !! i) as [c|]; [|reflexivity].
  unfold bind.
  destruct (deliver_frame message c env w) as (w' & -> & _). reflexivity.
Qed.

(** Over a stretch of peers whose writes all succeed the loop writes one
    frame to each, in list order, and moves on. *)
Lemma for_active_connections_healthy (message : payload) (env : Env)
    (seg pre post : list WebSocket) (fuel : nat) (w : World) :
  active_connections (manager w) = pre ++ seg ++ post ->
  (forall k websocket, websocket ∈ seg -> send_outcome env k websocket = None) ->
  for_active_connections (length seg + fuel) (length pre) (deliver message)
    env w
  = for_active_connections fuel (length pre + length seg) (deliver message)
      env
      {| manager := manager w;
         wire := wire w ++ map (fun websocket => (websocket, message)) seg;
         ticks := ticks w; sends := sends w + length seg |}.
Proof.
  revert pre w. induction seg as [|x seg IH]; intros pre w Hl Hok.
  - simpl. rewrite app_nil_r, !Nat.add_0_r. by destruct w.
  - change (length (x :: seg) + fuel) with (S (length seg + fuel)).
    rewrite for_active_connections_step.
    simpl in Hl. rewrite Hl. rewrite list_lookup_middle by done.
    rewrite deliver_spec.
    rewrite (Hok (sends w) x) by (apply elem_of_cons; by left).
    cbn [snd].
    specialize (IH (pre ++ [x])
      {| manager := manager w; wire := wire w ++ [(x, message)];
         ticks := ticks w; sends := S (sends w) |}).
    rewrite length_app in IH. cbn [length manager wire ticks sends] in IH.
    replace (length pre + 1) with (S (length pre)) in IH by lia.
    rewrite IH.
    + f_equal; [simpl; lia|]. rewrite <- app_assoc. simpl. f_equal. lia.
    + rewrite Hl. by rewrite <- app_assoc.
    + intros k websocket Hin. apply Hok. apply elem_of_cons. by right.
Qed.

(** X11.  What [send_to_all] does when exactly one registered peer, [c],
    is dead: [c] is removed and [stats] is kept, but the peer that follows
    [c] in the list is passed over, because the removal shifts it under the
    index the iterator has already left. *)
Lemma send_to_all_one_dead_peer (message : payload) (env : Env)
    (l1 l2 : list WebSocket) (c : WebSocket) (e : exn) (w : World) :
  active_connections (manager w) = l1 ++ c :: l2 ->
  NoDup (l1 ++ c :: l2) ->
  (forall k, send_outcome env k c = Some e) ->
  (forall k websocket, websocket <> c -> send_outcome env k websocket = None) ->
  send_to_all message env w
  = (Returned tt,
     {| manager := set_connections (l1 ++ l2) (manager w);
        wire := wire w
                ++ map (fun websocket => (websocket, message)) (l1 ++ tail l2);
        ticks := ticks w;
        sends := sends w + length l1 + 1 + length (tail l2) |}).
Proof.
  intros Hl Hnd Hdead Hok.
  apply NoDup_app in Hnd as (Hnd1 & Hsep & Hnd2).
  apply NoDup_cons in Hnd2 as [Hc2 Hnd2].
  assert (Hc1 : c ∉ l1).
  { intros Hin. apply (Hsep c Hin). apply elem_of_cons. by left. }
  rewrite send_to_all_unfold, Hl, length_app.
  change (length (c :: l2)) with (S (length l2)).
  replace (S (length l1 + S (length l2)))
    with (length l1 + S (S (length l2))) by lia.
  change 0 with (length (@nil WebSocket)) at 1.
  rewrite (for_active_connections_healthy message env l1 [] (c :: l2)
             (S (S (length l2))) w Hl)
    by (intros k x Hin; apply Hok; by intros ->).
  change (length (@nil WebSocket) + length l1) with (length l1).
  rewrite for_active_connections_step. cbn [manager].
  rewrite Hl. rewrite list_lookup_middle by done.
  rewrite deliver_spec. cbn [manager wire ticks sends snd].
  rewrite Hdead. cbn [snd]. rewrite Hl.
  unfold after_remove. rewrite list_remove_first_middle by done.
  cbn [default from_option id].
  destruct l2 as [|y l2].
  - rewrite for_active_connections_step. cbn [manager set_connections
      active_connections].
    rewrite app_nil_r. rewrite lookup_ge_None_2 by lia.
    f_equal. cbn [tail length]. rewrite app_nil_r. f_equal. lia.
  - assert (Hy : y <> c).
    { intros ->. apply Hc2. apply elem_of_cons. by left. }
    pose proof (for_active_connections_healthy message env l2 (l1 ++ [y]) []
                  2
                  {| manager := set_connections (l1 ++ y :: l2) (manager w);
                     wire := wire w
                             ++ map (fun websocket => (websocket, message)) l1;
                     ticks := ticks w;
                     sends := S (sends w + length l1) |}) as Htail.
    rewrite length_app in Htail. cbn [length] in Htail.
    replace (length l1 + 1) with (S (length l1)) in Htail by lia.
    replace (length l2 + 2) with (S (S (length l2))) in Htail by lia.
    cbn [length]. rewrite Htail; cycle 1.
    { cbn [manager set_connections active_connections].
      by rewrite app_nil_r, <- app_assoc. }
    { intros k x Hin. apply Hok. intros ->.
      apply Hc2. apply elem_of_cons. by right. }
    clear Htail.
    rewrite for_active_connections_step.
    cbn [manager set_connections active_connections].
    rewrite lookup_ge_None_2 by (rewrite !length_app; simpl; lia).
    f_equal. cbn [tail manager wire ticks sends]. f_equal.
    + by rewrite map_app, app_assoc.
    + lia.
Qed.

(** C1 on the code.  Three registered peers, the first one dead: the dead
    peer is removed, but the second peer gets no frame (only the third
    does), and [total_connections] still says 3. *)
Theorem send_to_all_passes_over_successor :
  send_to_all (MonitoringStarted "Monitoring started from API")
    (env_of clock_forward [1])
    (run (env_of clock_forward [1]) [Open 1; Open 2; Open 3] init_world)
  = (Returned tt,
     {| manager :=
          {| active_connections := [2; 3];
             stats := {| total_connections := 3;
                         is_monitoring := false;
                         last_update := Some 102 |} |};
        wire := [(3, MonitoringStarted "Monitoring started from API")];
        ticks := 3; sends := 2 |}).
Proof. vm_compute. reflexivity. Qed.

(** ** The stored count after a broadcast *)

(** Every handler but the two broadcasting ones keeps the stored count equal
    to the length of the list. *)
Lemma step_keeps_count (env : Env) (w : World) (ev : event) :
  ev <> PostStart -> ev <> PostStop ->
  count_consistent w -> count_consistent (step env w ev).
Proof.
  intros Hstart Hstop Hcount.
  destruct ev as [websocket|websocket f| | | | |]; simpl; try done.
  - unfold websocket_open, bind. rewrite connect_spec.
    by destruct (accept_outcome env websocket).
  - rewrite session_step_cases.
    destruct (handle_message websocket f env w) as [[[]|e|] w'] eqn:Hh;
      simpl.
    + revert Hh. unfold handle_message, bind.
      destruct f as [| |[]]; simpl; try discriminate.
      repeat (match goal with
              | |- context [eq_str ?a ?b] => destruct (eq_str a b)
              end; simpl);
        unfold send_text; simpl;
        try match goal with
            | |- context [send_outcome ?e ?k ?c] =>
                destruct (send_outcome e k c)
            end;
        intros [= <-]; exact Hcount.
    + rewrite disconnect_spec. reflexivity.
    + revert Hh. unfold handle_message, bind.
      destruct f as [| |[]]; simpl; try discriminate.
      repeat (match goal with
              | |- context [eq_str ?a ?b] => destruct (eq_str a b)
              end; simpl);
        unfold send_text; simpl;
        try match goal with
            | |- context [send_outcome ?e ?k ?c] =>
                destruct (send_outcome e k c)
            end;
        discriminate.
Qed.

(** C2 on the code.  Two peers connect, the REST handler of [/start]
    broadcasts and the write to the second peer fails: the list is left with
    one connection while [total_connections] still holds 2. *)
Theorem count_stale_after_broadcast :
  reachable (env_of clock_forward [2])
    (run (env_of clock_forward [2]) [Open 1; Open 2; PostStart] init_world) /\
  active_connections
    (manager (run (env_of clock_forward [2]) [Open 1; Open 2; PostStart]
                init_world)) = [1] /\
  total_connections
    (stats (manager (run (env_of clock_forward [2])
                       [Open 1; Open 2; PostStart] init_world))) = 2 /\
  ~ count_consistent
      (run (env_of clock_forward [2]) [Open 1; Open 2; PostStart] init_world).
Proof.
  split; [by eexists|]. split; [reflexivity|]. split; [reflexivity|].
  vm_compute. lia.
Qed.

(** C5 on the code.  After the same broadcast the surviving peer asks for
    the statistics: the reply carries [total_connections = 2] although one
    connection is registered. *)
Theorem get_stats_reply_is_stale :
  wire (run (env_of clock_forward [2])
          [Open 1; Open 2; PostStart; Receive 1 (type_message "get_stats")]
          init_world)
  = [(1, MonitoringStarted "Monitoring started from API");
     (1, StatsReply {| total_connections := 2;
                       is_monitoring := true;
                       last_update := Some 102 |})] /\
  length
    (active_connections
       (manager (run (env_of clock_forward [2])
                   [Open 1; Open 2; PostStart;
                    Receive 1 (type_message "get_stats")]
                   init_world))) = 1.
Proof. split; vm_compute; reflexivity. Qed.

(** * Further properties of the handlers *)

(** ** The branches of the session loop *)

(** X1.  A [ping] whose reply can be written is answered with exactly one
    [pong] frame, to the sender, stamped with the clock reading of that
    turn; nothing goes to another connection, the manager is untouched and
    the session goes on. *)
Theorem ping_gets_one_pong (websocket : WebSocket)
    (members : list (string * json)) (env : Env) (w : World) :
  dict_get "type" members = Some (JString "ping") ->
  send_outcome env (sends w) websocket = None ->
  session_step websocket (Document (JObject members)) env w
  = (Returned Active,
     {| manager := manager w;
        wire := wire w ++ [(websocket, Pong (datetime_now env (ticks w)))];
        ticks := S (ticks w); sends := S (sends w) |}).
Proof.
  intros Hty Hsend.
  unfold session_step, try_except, handle_message, bind. simpl.
  rewrite Hty. simpl. unfold send_text. simpl. rewrite Hsend. reflexivity.
Qed.

Lemma ping_gets_one_pong_witness :
  session_step 2 (type_message "ping") (env_of clock_forward [1])
    (run (env_of clock_forward [1]) [Open 1; Open 2] init_world)
  = (Returned Active,
     {| manager :=
          manager (run (env_of clock_forward [1]) [Open 1; Open 2] init_world);
        wire := [(2, Pong 102)]; ticks := 3; sends := 1 |}).
Proof.
  apply (ping_gets_one_pong 2 [("type", JString "ping")]
           (env_of clock_forward [1])
           (run (env_of clock_forward [1]) [Open 1; Open 2] init_world)).
  - vm_compute. reflexivity.
  - vm_compute. reflexivity.
Defined.

(** X2.  A [get_stats] whose reply can be written is answered with one
    [stats] frame, to the sender, that carries the [stats] dictionary as
    stored at that moment; the manager and the clock are untouched. *)
Theorem get_stats_gets_stored_stats (websocket : WebSocket)
    (members : list (string * json)) (env : Env) (w : World) :
  dict_get "type" members = Some (JString "get_stats") ->
  send_outcome env (sends w) websocket = None ->
  session_step websocket (Document (JObject members)) env w
  = (Returned Active,
     {| manager := manager w;
        wire := wire w ++ [(websocket, StatsReply (stats (manager w)))];
        ticks := ticks w; sends := S (sends w) |}).
Proof.
  intros Hty Hsend.
  unfold session_step, try_except, handle_message, bind. simpl.
  rewrite Hty. simpl. unfold send_text. simpl. rewrite Hsend. reflexivity.
Qed.

Lemma get_stats_gets_stored_stats_witness :
  session_step 1 (type_message "get_stats") (env_of clock_forward [])
    (run (env_of clock_forward []) [Open 1; Open 2] init_world)
  = (Returned Active,
     {| manager :=
          manager (run (env_of clock_forward []) [Open 1; Open 2] init_world);
        wire := [(1, StatsReply {| total_connections := 2;
                                   is_monitoring := false;
                                   last_update := Some 101 |})];
        ticks := 2; sends := 1 |}).
Proof.
  apply (get_stats_gets_stored_stats 1 [("type", JString "get_stats")]
           (env_of clock_forward [])
           (run (env_of clock_forward []) [Open 1; Open 2] init_world)).
  - vm_compute. reflexivity.
  - vm_compute. reflexivity.
Defined.

(** X3.  A [start_monitoring] ([b = true]) or [stop_monitoring]
    ([b = false]) on the wire whose reply can be written sets the flag,
    stamps [last_update], and answers the sender alone: the one new frame
    on the wire is the sender's, and the list of connections and the count
    are as before. *)
Theorem wire_toggle_answers_sender_only (websocket : WebSocket)
    (members : list (string * json)) (b : bool) (env : Env) (w : World) :
  dict_get "type" members
  = Some (JString (if b then "start_monitoring" else "stop_monitoring")) ->
  send_outcome env (sends w) websocket = None ->
  session_step websocket (Document (JObject members)) env w
  = (Returned Active,
     {| manager :=
          {| active_connections := active_connections (manager w);
             stats :=
               {| total_connections := total_connections (stats (manager w));
                  is_monitoring := b;
                  last_update := Some (datetime_now env (ticks w)) |} |};
        wire := wire w ++ [(websocket, toggle_reply b)];
        ticks := S (ticks w); sends := S (sends w) |}).
Proof.
  intros Hty Hsend.
  unfold session_step, try_except, handle_message, bind. simpl.
  rewrite Hty.
  destruct b; simpl; unfold send_text; simpl; rewrite Hsend; reflexivity.
Qed.

Lemma wire_toggle_answers_sender_only_witness :
  session_step 1 (type_message "stop_monitoring") (env_of clock_forward [])
    (run (env_of clock_forward []) [Open 1; Open 2; PostStart] init_world)
  = (Returned Active,
     {| manager :=
          {| active_connections := [1; 2];
             stats := {| total_connections := 2;
                         is_monitoring := false;
                         last_update := Some 103 |} |};
        wire := [(1, MonitoringStarted "Monitoring started from API");
                 (2, MonitoringStarted "Monitoring started from API");
                 (1, MonitoringStopped "Monitoring stopped successfully")];
        ticks := 4; sends := 3 |}).
Proof.
  apply (wire_toggle_answers_sender_only 1
           [("type", JString "stop_monitoring")] false
           (env_of clock_forward [])
           (run (env_of clock_forward []) [Open 1; Open 2; PostStart]
              init_world)).
  - vm_compute. reflexivity.
  - vm_compute. reflexivity.
Defined.

Lemma handle_message_keeps_registry (websocket : WebSocket) (f : frame)
    (env : Env) (w : World) :
  active_connections (manager (snd (handle_message websocket f env w)))
  = active_connections (manager w) /\
  total_connections (stats (manager (snd (handle_message websocket f env w))))
  = total_connections (stats (manager w)).
Proof.
  unfold handle_message, bind.
  destruct f as [| |[]]; simpl; try done.
  repeat (match goal with
          | |- context [eq_str ?a ?b] => destruct (eq_str a b)
          end; simpl);
    unfold send_text; simpl;
    try match goal with
        | |- context [send_outcome ?e ?k ?c] => destruct (send_outcome e k c)
        end;
    done.
Qed.

Lemma session_step_ends_or_keeps_registry_aux (websocket : WebSocket)
    (f : frame) (env : Env) (w : World) :
  (fst (session_step websocket f env w) = Returned Active /\
   active_connections (manager (snd (session_step websocket f env w)))
   = active_connections (manager w) /\
   total_connections (stats (manager (snd (session_step websocket f env w))))
   = total_connections (stats (manager w)))
  \/
  (fst (session_step websocket f env w) = Returned Closed /\
   active_connections (manager (snd (session_step websocket f env w)))
   = after_remove websocket (active_connections (manager w)) /\
   count_consistent (snd (session_step websocket f env w))).
Proof.
  rewrite session_step_cases.
  destruct (handle_message_keeps_registry websocket f env w) as [Hl Ht].
  assert (Hfuel : fst (handle_message websocket f env w) <> OutOfFuel).
  { unfold handle_message, bind.
    destruct f as [| |[]]; simpl; try done.
    repeat (match goal with
            | |- context [eq_str ?a ?b] => destruct (eq_str a b)
            end; simpl);
      unfold send_text; simpl;
      try match goal with
          | |- context [send_outcome ?e ?k ?c] => destruct (send_outcome e k c)
          end;
      done. }
  destruct (handle_message websocket f env w) as [[[]|e|] w']; simpl in *.
  - left. done.
  - right. rewrite disconnect_spec. simpl. rewrite Hl. done.
  - done.
Qed.

(** X4.  A turn of the session loop never lets an exception out, and its
    input decides which of two effects it has on the registry.  When the
    peer has closed, the text is not a JSON object, or the reply of the
    turn cannot be written, the session ends, one registration of the
    connection is removed (if there is one) and the count is recomputed
    from the list.  In every other case the turn completes, the session
    goes on, and the list of connections and the count are as before. *)
Theorem session_step_ends_or_keeps_registry (websocket : WebSocket)
    (f : frame) (env : Env) (w : World) :
  if turn_raises env w websocket f then
    fst (session_step websocket f env w) = Returned Closed /\
    active_connections (manager (snd (session_step websocket f env w)))
    = after_remove websocket (active_connections (manager w)) /\
    total_connections (stats (manager (snd (session_step websocket f env w))))
    = length (after_remove websocket (active_connections (manager w)))
  else
    fst (session_step websocket f env w) = Returned Active /\
    active_connections (manager (snd (session_step websocket f env w)))
    = active_connections (manager w) /\
    total_connections (stats (manager (snd (session_step websocket f env w))))
    = total_connections (stats (manager w)).
Proof.
  rewrite session_step_cases.
  unfold turn_raises, recognised_type, handle_message, bind.
  destruct f as [| |[]]; simpl; rewrite ?disconnect_spec; simpl; try done.
  repeat (match goal with
          | |- context [eq_str ?a ?b] => destruct (eq_str a b)
          end; simpl);
    unfold send_text; simpl;
    try match goal with
        | |- context [send_outcome ?e ?k ?c] => destruct (send_outcome e k c)
        end;
    simpl; rewrite ?disconnect_spec; simpl; done.
Qed.

(** ** Register and unregister, one call at a time *)

(** X5.  Registering a connection that is not yet in the list and then
    unregistering it gives back the list of connections as it was, with the
    count equal to its length; the monitoring flag is not involved. *)
Theorem connect_then_disconnect_restores (websocket : WebSocket) (env : Env)
    (w : World) :
  accept_outcome env websocket = None ->
  websocket ∉ active_connections (manager w) ->
  fst (connect websocket env w) = Returned tt /\
  active_connections
    (manager (snd (disconnect websocket env (snd (connect websocket env w)))))
  = active_connections (manager w) /\
  total_connections
    (stats (manager (snd (disconnect websocket env
                            (snd (connect websocket env w))))))
  = length (active_connections (manager w)) /\
  is_monitoring
    (stats (manager (snd (disconnect websocket env
                            (snd (connect websocket env w))))))
  = is_monitoring (stats (manager w)).
Proof.
  intros Hacc Hnin. rewrite connect_spec, Hacc. cbn [fst snd].
  rewrite disconnect_spec. cbn [snd manager active_connections stats
    total_connections is_monitoring].
  assert (Hrem : after_remove websocket
                   (active_connections (manager w) ++ [websocket])
                 = active_connections (manager w)).
  { unfold after_remove. rewrite list_remove_first_middle by done.
    simpl. apply app_nil_r. }
  rewrite Hrem. done.
Qed.

Lemma connect_then_disconnect_restores_witness :
  active_connections
    (manager (snd (disconnect 3 (env_of clock_forward [])
                     (snd (connect 3 (env_of clock_forward [])
                             (run (env_of clock_forward []) [Open 1; Open 2]
                                init_world))))))
  = active_connections
      (manager (run (env_of clock_forward []) [Open 1; Open 2] init_world)).
Proof.
  apply (connect_then_disconnect_restores 3 (env_of clock_forward [])
           (run (env_of clock_forward []) [Open 1; Open 2] init_world)).
  - reflexivity.
  - vm_compute. intros Hin.
    apply elem_of_cons in Hin as [Heq|Hin]; [lia|].
    apply list_elem_of_singleton in Hin. lia.
Defined.

(** X6.  [disconnect] of a registered connection takes out its first
    occurrence and nothing else: the connections before and after it keep
    their order, and the count becomes the old length less one. *)
Theorem disconnect_removes_first_occurrence (websocket : WebSocket)
    (env : Env) (w : World) :
  websocket ∈ active_connections (manager w) ->
  exists l1 l2,
    active_connections (manager w) = l1 ++ websocket :: l2 /\
    (websocket ∉ l1) /\
    active_connections (manager (snd (disconnect websocket env w)))
    = l1 ++ l2 /\
    S (total_connections (stats (manager (snd (disconnect websocket env w)))))
    = length (active_connections (manager w)).
Proof.
  intros Hin.
  destruct (list_elem_of_split_l _ _ Hin) as (l1 & l2 & Hl & Hnin).
  exists l1, l2. rewrite disconnect_spec. cbn [snd manager active_connections
    stats total_connections].
  rewrite Hl. unfold after_remove.
  rewrite list_remove_first_middle by done. simpl.
  repeat split; try done.
  rewrite !length_app. simpl. lia.
Qed.

Lemma disconnect_removes_first_occurrence_witness :
  exists l1 l2,
    active_connections
      (manager (run (env_of clock_forward []) [Open 1; Open 2; Open 3]
                  init_world))
    = l1 ++ 2 :: l2 /\
    (2 ∉ l1) /\
    active_connections
      (manager (snd (disconnect 2 (env_of clock_forward [])
                       (run (env_of clock_forward []) [Open 1; Open 2; Open 3]
                          init_world))))
    = l1 ++ l2 /\
    S (total_connections
         (stats (manager (snd (disconnect 2 (env_of clock_forward [])
                                 (run (env_of clock_forward [])
                                    [Open 1; Open 2; Open 3] init_world))))))
    = length
        (active_connections
           (manager (run (env_of clock_forward []) [Open 1; Open 2; Open 3]
                       init_world))).
Proof.
  apply (disconnect_removes_first_occurrence 2 (env_of clock_forward [])
           (run (env_of clock_forward []) [Open 1; Open 2; Open 3]
              init_world)).
  vm_compute. apply elem_of_cons. right. apply elem_of_cons. by left.
Defined.

(** X7.  When [accept] raises, the endpoint raises the same exception
    before anything is registered: the list, the count, [last_update] and
    the clock are all as before, and nothing is written. *)
Theorem failed_accept_registers_nothing (websocket : WebSocket) (e : exn)
    (env : Env) (w : World) :
  accept_outcome env websocket = Some e ->
  websocket_open websocket env w = (Raised e, w).
Proof.
  intros Hacc. unfold websocket_open, bind. rewrite connect_spec, Hacc.
  reflexivity.
Qed.

Lemma failed_accept_registers_nothing_witness :
  websocket_open 1
    {| datetime_now := clock_forward;
       send_outcome := fun _ _ => None;
       accept_outcome := fun _ => Some RuntimeError |}
    init_world
  = (Raised RuntimeError, init_world).
Proof.
  apply (failed_accept_registers_nothing 1 RuntimeError
           {| datetime_now := clock_forward;
              send_outcome := fun _ _ => None;
              accept_outcome := fun _ => Some RuntimeError |}
           init_world).
  reflexivity.
Defined.

(** ** What a broadcast writes and what it drops *)

Lemma after_remove_sublist (x : WebSocket) (l : list WebSocket) :
  after_remove x l `sublist_of` l.
Proof.
  unfold after_remove. induction l as [|y l IH]; simpl; [done|].
  destruct (decide (x = y)); simpl.
  - by apply sublist_cons.
  - destruct (list_remove_first x l) as [r|]; simpl in *.
    + by apply sublist_skip.
    + done.
Qed.

(** When every write succeeds the loop walks the whole list. *)
Lemma for_active_connections_all_healthy (message : payload) (env : Env)
    (fuel : nat) (w : World) :
  (forall k c, c ∈ active_connections (manager w) ->
               send_outcome env k c = None) ->
  for_active_connections (length (active_connections (manager w)) + S fuel) 0
    (deliver message) env w
  = (Returned tt,
     {| manager := manager w;
        wire := wire w
                ++ map (fun c => (c, message))
                     (active_connections (manager w));
        ticks := ticks w;
        sends := sends w + length (active_connections (manager w)) |}).
Proof.
  intros Hok.
  change 0 with (length (@nil WebSocket)) at 1.
  rewrite (for_active_connections_healthy message env
             (active_connections (manager w)) [] [] (S fuel) w)
    by (by rewrite ?app_nil_r).
  rewrite for_active_connections_step. cbn [manager].
  rewrite lookup_ge_None_2 by (simpl; lia). reflexivity.
Qed.

(** The loop only takes connections out, and writes [message] only, to
    connections of the list it started from. *)
Lemma for_active_connections_members (message : payload) (env : Env)
    (fuel i : nat) (w : World) :
  exists sent,
    active_connections
      (manager (snd (for_active_connections fuel i (deliver message) env w)))
    `sublist_of` active_connections (manager w) /\
    wire (snd (for_active_connections fuel i (deliver message) env w))
    = wire w ++ map (fun c => (c, message)) sent /\
    forall c, c ∈ sent -> c ∈ active_connections (manager w).
Proof.
  revert i w. induction fuel as [|fuel IH]; intros i w.
  - exists []. simpl. rewrite app_nil_r.
    split; [reflexivity|]. split; [done|].
    intros c Hc. by apply elem_of_nil in Hc.
  - rewrite for_active_connections_step.
    destruct (active_connections (manager w) !! i) as [c|] eqn:Hi.
    + assert (Hc : c ∈ active_connections (manager w))
        by (by eapply list_elem_of_lookup_2).
      destruct (IH (S i) (snd (deliver message c env w)))
        as (sent & Hsub & Hwire & Hsent).
      revert Hsub Hwire Hsent. rewrite deliver_spec.
      destruct (send_outcome env (sends w) c); cbn [snd manager wire
        set_connections active_connections]; intros Hsub Hwire Hsent.
      * exists sent.
        split; [etrans; [exact Hsub|apply after_remove_sublist]|].
        split; [done|]. intros x Hx.
        eapply elem_of_sublist; [by apply Hsent|apply after_remove_sublist].
      * exists (c :: sent). split; [done|]. split.
        -- rewrite Hwire, <- app_assoc. reflexivity.
        -- intros x Hx. apply elem_of_cons in Hx as [->|Hx]; auto.
    + exists []. simpl. rewrite app_nil_r.
      split; [reflexivity|]. split; [done|].
      intros c Hc. by apply elem_of_nil in Hc.
Qed.

Lemma for_active_connections_keeps_healthy (message : payload) (env : Env)
    (c : WebSocket) (fuel i : nat) (w : World) :
  (forall k, send_outcome env k c = None) ->
  c ∈ active_connections (manager w) ->
  c ∈ active_connections
        (manager (snd (for_active_connections fuel i (deliver message)
                         env w))).
Proof.
  intros Hok. revert i w. induction fuel as [|fuel IH]; intros i w Hin.
  - done.
  - rewrite for_active_connections_step.
    destruct (active_connections (manager w) !! i) as [x|]; [|done].
    apply IH. rewrite deliver_spec.
    destruct (send_outcome env (sends w) x) as [e|] eqn:Hx; cbn [snd manager
      set_connections active_connections]; [|done].
    apply after_remove_keeps_other; [|done].
    intros ->. by rewrite Hok in Hx.
Qed.

(** X8.  When the write to every registered connection succeeds,
    [send_to_all] writes the message once per entry of the list, in list
    order, and leaves the manager as it was. *)
Theorem send_to_all_reaches_everyone (message : payload) (env : Env)
    (w : World) :
  (forall k c, c ∈ active_connections (manager w) ->
               send_outcome env k c = None) ->
  send_to_all message env w
  = (Returned tt,
     {| manager := manager w;
        wire := wire w
                ++ map (fun c => (c, message))
                     (active_connections (manager w));
        ticks := ticks w;
        sends := sends w + length (active_connections (manager w)) |}).
Proof.
  intros Hok. rewrite send_to_all_unfold.
  replace (S (length (active_connections (manager w))))
    with (length (active_connections (manager w)) + 1) by lia.
  by apply for_active_connections_all_healthy.
Qed.

Lemma send_to_all_reaches_everyone_witness :
  send_to_all (MonitoringStopped "Monitoring stopped from API")
    (env_of clock_forward [])
    (run (env_of clock_forward []) [Open 1; Open 2; Open 3] init_world)
  = (Returned tt,
     {| manager :=
          manager (run (env_of clock_forward []) [Open 1; Open 2; Open 3]
                     init_world);
        wire := [(1, MonitoringStopped "Monitoring stopped from API");
                 (2, MonitoringStopped "Monitoring stopped from API");
                 (3, MonitoringStopped "Monitoring stopped from API")];
        ticks := 3; sends := 3 |}).
Proof.
  apply (send_to_all_reaches_everyone
           (MonitoringStopped "Monitoring stopped from API")
           (env_of clock_forward [])
           (run (env_of clock_forward []) [Open 1; Open 2; Open 3]
              init_world)).
  intros k c Hc. reflexivity.
Defined.

Lemma send_to_all_only_registered_aux (message : payload) (env : Env)
    (w : World) :
  active_connections (manager (snd (send_to_all message env w)))
  `sublist_of` active_connections (manager w).
Proof.
  rewrite send_to_all_unfold.
  by destruct (for_active_connections_members message env
                 (S (length (active_connections (manager w)))) 0 w)
    as (sent & Hsub & _).
Qed.

(** X9.  A broadcast never registers anyone and never writes to a stranger:
    the list afterwards is the old list with some entries taken out, and
    every frame it puts on the wire carries the given message to a
    connection of the old list. *)
Theorem send_to_all_only_registered (message : payload) (env : Env)
    (w : World) :
  active_connections (manager (snd (send_to_all message env w)))
  `sublist_of` active_connections (manager w) /\
  exists sent,
    wire (snd (send_to_all message env w))
    = wire w ++ map (fun c => (c, message)) sent /\
    forall c, c ∈ sent -> c ∈ active_connections (manager w).
Proof.
  rewrite send_to_all_unfold.
  destruct (for_active_connections_members message env
              (S (length (active_connections (manager w)))) 0 w)
    as (sent & Hsub & Hwire & Hsent).
  split; [done|]. by exists sent.
Qed.

(** X10.  A broadcast drops no connection whose writes succeed: such a
    connection, once registered, is still registered afterwards, whatever
    happens to the others. *)
Theorem send_to_all_keeps_healthy (message : payload) (env : Env)
    (c : WebSocket) (w : World) :
  (forall k, send_outcome env k c = None) ->
  c ∈ active_connections (manager w) ->
  c ∈ active_connections (manager (snd (send_to_all message env w))).
Proof.
  intros Hok Hin. rewrite send_to_all_unfold.
  by apply for_active_connections_keeps_healthy.
Qed.

Lemma send_to_all_keeps_healthy_witness :
  2 ∈ active_connections
        (manager (snd (send_to_all
                         (MonitoringStarted "Monitoring started from API")
                         (env_of clock_forward [1; 3])
                         (run (env_of clock_forward [1; 3])
                            [Open 1; Open 2; Open 3] init_world)))).
Proof.
  apply (send_to_all_keeps_healthy
           (MonitoringStarted "Monitoring started from API")
           (env_of clock_forward [1; 3]) 2
           (run (env_of clock_forward [1; 3]) [Open 1; Open 2; Open 3]
              init_world)).
  - intros k. reflexivity.
  - vm_compute. apply elem_of_cons. right. apply elem_of_cons. by left.
Defined.

Lemma send_to_all_one_dead_peer_witness :
  send_to_all (MonitoringStarted "Monitoring started from API")
    (env_of clock_forward [2])
    (run (env_of clock_forward [2]) [Open 1; Open 2; Open 3; Open 4]
       init_world)
  = (Returned tt,
     {| manager :=
          set_connections ([1] ++ [3; 4])
            (manager (run (env_of clock_forward [2])
                        [Open 1; Open 2; Open 3; Open 4] init_world));
        wire :=
          wire (run (env_of clock_forward [2])
                  [Open 1; Open 2; Open 3; Open 4] init_world)
          ++ map (fun websocket =>
                    (websocket,
                     MonitoringStarted "Monitoring started from API"))
               ([1] ++ tail [3; 4]);
        ticks :=
          ticks (run (env_of clock_forward [2])
                   [Open 1; Open 2; Open 3; Open 4] init_world);
        sends :=
          sends (run (env_of clock_forward [2])
                   [Open 1; Open 2; Open 3; Open 4] init_world)
          + length [1] + 1 + length (tail [3; 4]) |}).
Proof.
  apply (send_to_all_one_dead_peer
           (MonitoringStarted "Monitoring started from API")
           (env_of clock_forward [2]) [1] [3; 4] 2 RuntimeError
           (run (env_of clock_forward [2]) [Open 1; Open 2; Open 3; Open 4]
              init_world)).
  - reflexivity.
  - apply (bool_decide_unpack _). vm_compute. reflexivity.
  - intros k. reflexivity.
  - intros k websocket Hne. unfold env_of. simpl.
    rewrite bool_decide_eq_false_2; [reflexivity|].
    intros Hin. apply list_elem_of_singleton in Hin. done.
Defined.

(** ** The REST handlers *)

Lemma toggle_then_broadcast_spec (b : bool) (message : payload) (env : Env)
    (w : World) :
  exists w',
    (modify (set_is_monitoring b) ;;;
     t <- now ;;
     modify (set_last_update t) ;;;
     send_to_all message) env w = (Returned tt, w') /\
    stats (manager w')
    = {| total_connections := total_connections (stats (manager w));
         is_monitoring := b;
         last_update := Some (datetime_now env (ticks w)) |}.
Proof.
  unfold bind. simpl.
  match goal with
  | |- context [send_to_all message env ?w1] =>
      destruct (send_to_all_frame message env w1) as (w' & -> & Hs & _)
  end.
  exists w'. split; [reflexivity|]. rewrite Hs. reflexivity.
Qed.

(** X12.  [POST /start] and [POST /stop] always return normally, whatever
    the writes of the broadcast do: the flag is set to [True], respectively
    [False], [last_update] holds the reading taken by the handler, and
    [total_connections] is not touched. *)
Theorem rest_toggles_set_flag (env : Env) (w : World) :
  (fst (start_monitoring env w) = Returned tt /\
   is_monitoring (stats (manager (snd (start_monitoring env w)))) = true /\
   last_update (stats (manager (snd (start_monitoring env w))))
   = Some (datetime_now env (ticks w)) /\
   total_connections (stats (manager (snd (start_monitoring env w))))
   = total_connections (stats (manager w)))
  /\
  (fst (stop_monitoring env w) = Returned tt /\
   is_monitoring (stats (manager (snd (stop_monitoring env w)))) = false /\
   last_update (stats (manager (snd (stop_monitoring env w))))
   = Some (datetime_now env (ticks w)) /\
   total_connections (stats (manager (snd (stop_monitoring env w))))
   = total_connections (stats (manager w))).
Proof.
  split.
  - destruct (toggle_then_broadcast_spec true
                (MonitoringStarted "Monitoring started from API") env w)
      as (w' & Heq & Hs).
    unfold start_monitoring. rewrite Heq. simpl. rewrite Hs. done.
  - destruct (toggle_then_broadcast_spec false
                (MonitoringStopped "Monitoring stopped from API") env w)
      as (w' & Heq & Hs).
    unfold stop_monitoring. rewrite Heq. simpl. rewrite Hs. done.
Qed.

(** ** Invariants of an execution *)

Lemma toggle_then_broadcast_keeps_count (b : bool) (message : payload)
    (env : Env) (w : World) :
  (forall k c, send_outcome env k c = None) ->
  count_consistent w ->
  count_consistent
    (snd ((modify (set_is_monitoring b) ;;;
           t <- now ;;
           modify (set_last_update t) ;;;
           send_to_all message) env w)).
Proof.
  intros Hok Hcount. unfold bind at 1 2 3. simpl.
  rewrite send_to_all_unfold.
  match goal with
  | |- context [for_active_connections (S ?n) 0 _ env ?w1] =>
      replace (S n) with (length (active_connections (manager w1)) + 1)
        by (simpl; lia);
      rewrite (for_active_connections_all_healthy message env 0 w1)
        by (intros; apply Hok)
  end.
  exact Hcount.
Qed.

(** X13.  As long as no write to a client fails, [total_connections] is
    the length of the list of connections after every handler turn of every
    execution from the fresh process, broadcasts included. *)
Theorem count_consistent_while_writes_succeed (env : Env)
    (evs : list event) :
  (forall k c, send_outcome env k c = None) ->
  count_consistent (run env evs init_world).
Proof.
  intros Hok.
  assert (Hgen : forall w, count_consistent w ->
                           count_consistent (run env evs w)).
  { induction evs as [|ev evs IH]; intros w Hw; [done|].
    simpl. apply IH.
    destruct ev as [websocket|websocket f| | | | |];
      try (apply step_keeps_count; [discriminate|discriminate|exact Hw]).
    - by apply toggle_then_broadcast_keeps_count.
    - by apply toggle_then_broadcast_keeps_count. }
  apply Hgen. reflexivity.
Qed.

Lemma count_consistent_while_writes_succeed_witness :
  count_consistent
    (run (env_of clock_forward [])
       [Open 1; Open 2; PostStart; Receive 1 PeerClosed; PostStop]
       init_world).
Proof.
  apply (count_consistent_while_writes_succeed (env_of clock_forward [])
           [Open 1; Open 2; PostStart; Receive 1 PeerClosed; PostStop]).
  intros k c. reflexivity.
Defined.

Lemma handle_message_keeps_flag (websocket : WebSocket) (f : frame)
    (env : Env) (w : World) :
  toggling (Receive websocket f) = false ->
  is_monitoring (stats (manager (snd (handle_message websocket f env w))))
  = is_monitoring (stats (manager w)).
Proof.
  unfold handle_message, bind.
  destruct f as [| |[]]; simpl; try done.
  intros Htog. apply orb_false_iff in Htog as [Hstart Hstop].
  rewrite Hstart, Hstop.
  repeat (match goal with
          | |- context [eq_str ?a ?b] => destruct (eq_str a b)
          end; simpl);
    unfold send_text; simpl;
    try match goal with
        | |- context [send_outcome ?e ?k ?c] => destruct (send_outcome e k c)
        end;
    done.
Qed.

(** X14.  [is_monitoring] changes only through the two [POST] handlers and
    the two toggling messages on the wire: the handler of any other event
    (a new connection, any other message, a session that ends, a [GET])
    leaves the flag as it was. *)
Theorem flag_changes_only_by_toggling (env : Env) (w : World) (ev : event) :
  toggling ev = false ->
  is_monitoring (stats (manager (step env w ev)))
  = is_monitoring (stats (manager w)).
Proof.
  intros Htog.
  destruct ev as [websocket|websocket f| | | | |]; simpl; try done.
  - unfold websocket_open, bind. rewrite connect_spec.
    by destruct (accept_outcome env websocket).
  - rewrite session_step_cases.
    pose proof (handle_message_keeps_flag websocket f env w Htog) as H.
    destruct (handle_message websocket f env w) as [[[]|e|] w']; simpl in *;
      try done.
    rewrite disconnect_spec. simpl. done.
Qed.

Lemma flag_changes_only_by_toggling_witness :
  is_monitoring
    (stats (manager
       (step (env_of clock_forward [])
          (run (env_of clock_forward []) [Open 1; PostStart] init_world)
          (Receive 1 Malformed))))
  = is_monitoring
      (stats (manager
         (run (env_of clock_forward []) [Open 1; PostStart] init_world))).
Proof.
  apply (flag_changes_only_by_toggling (env_of clock_forward [])
           (run (env_of clock_forward []) [Open 1; PostStart] init_world)
           (Receive 1 Malformed)).
  reflexivity.
Defined.

(** X15.  When a turn of the loop ends the session of a connection that is
    registered at most once, the connection is no longer in the list
    afterwards, and every other connection still is. *)
Theorem closed_session_is_unregistered (websocket : WebSocket) (f : frame)
    (env : Env) (w : World) :
  NoDup (active_connections (manager w)) ->
  fst (session_step websocket f env w) = Returned Closed ->
  (websocket ∉ active_connections
                 (manager (snd (session_step websocket f env w)))) /\
  forall c, c <> websocket ->
            c ∈ active_connections (manager w) ->
            c ∈ active_connections
                  (manager (snd (session_step websocket f env w))).
Proof.
  intros Hnd Hclosed.
  destruct (session_step_ends_or_keeps_registry_aux websocket f env w)
    as [[Hact _]|(_ & Hl & _)].
  { rewrite Hact in Hclosed. discriminate Hclosed. }
  rewrite Hl. split.
  - unfold after_remove.
    destruct (list_remove_first websocket (active_connections (manager w)))
      as [l'|] eqn:Hrem; simpl.
    + by destruct (list_remove_first_NoDup _ _ _ Hrem Hnd).
    + intros Hin.
      destruct (list_remove_first_elem _ _ Hin) as (l' & Hl' & _).
      congruence.
  - intros c Hne Hin. by apply after_remove_keeps_other.
Qed.

Lemma closed_session_is_unregistered_witness :
  1 ∉ active_connections
        (manager (snd (session_step 1 PeerClosed (env_of clock_forward [])
                         (run (env_of clock_forward []) [Open 1; Open 2]
                            init_world)))).
Proof.
  apply (closed_session_is_unregistered 1 PeerClosed (env_of clock_forward [])
           (run (env_of clock_forward []) [Open 1; Open 2] init_world)).
  - apply (bool_decide_unpack _). vm_compute. reflexivity.
  - vm_compute. reflexivity.
Defined.

Lemma toggle_then_broadcast_sublist (b : bool) (message : payload)
    (env : Env) (w : World) :
  active_connections
    (manager (snd ((modify (set_is_monitoring b) ;;;
                    t <- now ;;
                    modify (set_last_update t) ;;;
                    send_to_all message) env w)))
  `sublist_of` active_connections (manager w).
Proof.
  unfold bind at 1 2 3. simpl.
  match goal with
  | |- context [send_to_all message env ?w1] =>
      exact (send_to_all_only_registered_aux message env w1)
  end.
Qed.

Lemma step_keeps_NoDup (env : Env) (w : World) (ev : event) :
  opens_fresh env [ev] w = true ->
  NoDup (active_connections (manager w)) ->
  NoDup (active_connections (manager (step env w ev))).
Proof.
  intros Hfresh Hnd.
  destruct ev as [websocket|websocket f| | | | |]; simpl in *; try done.
  - unfold websocket_open, bind. rewrite connect_spec.
    destruct (accept_outcome env websocket); [done|]. simpl.
    rewrite andb_true_r in Hfresh. apply bool_decide_eq_true in Hfresh.
    apply NoDup_app. repeat split; [done| |apply NoDup_singleton].
    intros x Hx Hx'. apply list_elem_of_singleton in Hx'. by subst.
  - destruct (session_step_ends_or_keeps_registry_aux websocket f env w)
      as [(_ & -> & _)|(_ & -> & _)]; [done|by apply after_remove_NoDup].
  - eapply sublist_NoDup; [exact Hnd|].
    exact (toggle_then_broadcast_sublist true _ env w).
  - eapply sublist_NoDup; [exact Hnd|].
    exact (toggle_then_broadcast_sublist false _ env w).
Qed.

(** X16.  In an execution from the fresh process in which every opening
    connection is a new one, the list of connections never holds a
    connection twice, whatever messages arrive and whichever writes
    fail. *)
Theorem no_connection_registered_twice (env : Env) (evs : list event) :
  opens_fresh env evs init_world = true ->
  NoDup (active_connections (manager (run env evs init_world))).
Proof.
  assert (Hgen : forall w, opens_fresh env evs w = true ->
                           NoDup (active_connections (manager w)) ->
                           NoDup (active_connections
                                    (manager (run env evs w)))).
  { induction evs as [|ev evs IH]; intros w Hfresh Hnd; [done|].
    simpl in Hfresh. apply andb_true_iff in Hfresh as [Hev Hrest].
    simpl. apply IH; [done|].
    apply step_keeps_NoDup; [|done]. simpl. by rewrite Hev. }
  intros Hfresh. apply Hgen; [done|]. apply NoDup_nil_2.
Qed.

Lemma no_connection_registered_twice_witness :
  NoDup (active_connections
           (manager (run (env_of clock_forward [2])
                       [Open 1; Open 2; Open 3; PostStart;
                        Receive 1 PeerClosed; Open 1]
                       init_world))).
Proof.
  apply (no_connection_registered_twice (env_of clock_forward [2])
           [Open 1; Open 2; Open 3; PostStart; Receive 1 PeerClosed; Open 1]).
  vm_compute. reflexivity.
Defined.

Lemma for_active_connections_bounded (message : payload) (env : Env)
    (fuel i : nat) (w : World) :
  sends (snd (for_active_connections fuel i (deliver message) env w))
  <= sends w + (length (active_connections (manager w)) - i).
Proof.
  revert i w. induction fuel as [|fuel IH]; intros i w; [simpl; lia|].
  rewrite for_active_connections_step.
  destruct (active_connections (manager w) !! i) as [c|] eqn:Hi;
    [|simpl; lia].
  apply lookup_lt_Some in Hi.
  specialize (IH (S i) (snd (deliver message c env w))).
  destruct (deliver_frame message c env w) as (w1 & Hd & _ & _ & Hlen).
  assert (Hsends : sends (snd (deliver message c env w)) = S (sends w)).
  { rewrite deliver_spec.
    by destruct (send_outcome env (sends w) c). }
  rewrite Hd in *. simpl in *. lia.
Qed.

(** X17.  A broadcast makes at most one [send_text] call per entry the
    list had when it started. *)
Theorem send_to_all_bounded_writes (message : payload) (env : Env)
    (w : World) :
  sends (snd (send_to_all message env w))
  <= sends w + length (active_connections (manager w)).
Proof.
  rewrite send_to_all_unfold.
  pose proof (for_active_connections_bounded message env
                (S (length (active_connections (manager w)))) 0 w).
  lia.
Qed.
